(** * reg-notify-github-plugin: the GitHub notifier plugin

    A shallow embedding of
    [packages/reg-notify-github-plugin/src/github-notifier-plugin.ts]
    and the properties of its [init], [notify] and [_createCommentBody].

    Asynchronous code is embedded in a small trace-and-outcome monad: a
    computation yields the list of observable events it performed (logger
    calls and remote API calls, in program order) together with the way
    its promise settled. *)

From Stdlib Require Import String Ascii List ZArith Bool Arith Lia.
From Stdlib Require Import DecimalString.
Import ListNotations.
Local Open Scope string_scope.

(* ================================================================== *)
(** ** JavaScript values *)

(** The primitive values an untyped options object or a thrown value can
    carry.  Numbers are restricted to integers, the only ones that occur. *)
Module Js.

Inductive value : Type :=
| undefined
| null
| boolean (b : bool)
| number (z : Z)
| str (s : string).

(** ToBoolean. *)
Definition truthy (v : value) : bool :=
  match v with
  | undefined | null => false
  | boolean b => b
  | number z => negb (Z.eqb z 0)
  | str s => negb (String.eqb s "")
  end.

(** [v === w]. *)
Definition strict_eq (v w : value) : bool :=
  match v, w with
  | undefined, undefined => true
  | null, null => true
  | boolean a, boolean b => Bool.eqb a b
  | number a, number b => Z.eqb a b
  | str a, str b => String.eqb a b
  | _, _ => false
  end.

(** [v !== w]. *)
Definition strict_neq (v w : value) : bool := negb (strict_eq v w).

(** [v ?? d]. *)
Definition coalesce (v d : value) : value :=
  match v with
  | undefined | null => d
  | _ => v
  end.

(** [v || d]. *)
Definition or (v d : value) : value := if truthy v then v else d.

(** [v && w]. *)
Definition and (v w : value) : value := if truthy v then w else v.

(** ToString of a non-negative integer such as an array length. *)
Definition nat_to_string (n : nat) : string :=
  NilZero.string_of_uint (Nat.to_uint n).

(** ToString, as performed by template-literal interpolation. *)
Definition to_string (v : value) : string :=
  match v with
  | undefined => "undefined"
  | null => "null"
  | boolean true => "true"
  | boolean false => "false"
  | number z => NilZero.string_of_int (Z.to_int z)
  | str s => s
  end.

(** Truthiness of an optional string property ([undefined] when absent). *)
Definition truthy_opt (o : option string) : bool :=
  match o with
  | None => false
  | Some s => negb (String.eqb s "")
  end.

(** ToString of an optional string property. *)
Definition to_string_opt (o : option string) : string :=
  match o with
  | None => "undefined"
  | Some s => s
  end.

(** [s.split(sep)] for a one-character separator. *)
Fixpoint split (sep : ascii) (s : string) : list string :=
  match s with
  | EmptyString => [EmptyString]
  | String c rest =>
      if Ascii.eqb c sep then EmptyString :: split sep rest
      else match split sep rest with
           | [] => [String c EmptyString]
           | h :: t => String c h :: t
           end
  end.

End Js.

(** The line terminator inside a template literal. *)
Definition LF : ascii := Ascii.ascii_of_nat 10.
Definition nl : string := String LF EmptyString.

(* ================================================================== *)
(** ** Data model *)

(** [interface GitHubPluginOption]; a field that is absent reads as
    [Js.undefined]. *)
Record GitHubPluginOption : Type := mkOption {
  opt_clientId : Js.value;
  opt_installationId : Js.value;
  opt_owner : Js.value;
  opt_repository : Js.value;
  opt_regconfigId : Js.value;
  opt_prComment : Js.value;
  opt_prCommentBehavior : Js.value;
  opt_setCommitStatus : Js.value;
  opt_customEndpoint : Js.value;
  opt_shortDescription : Js.value
}.

(** [BaseEventBody] of reg-gh-app-interface: the fields this file reads. *)
Record BaseEventBody : Type := mkApiOpt {
  installationId : Js.value;
  owner : Js.value;
  repository : Js.value
}.

(** The [error] member of [interface GhAppStatusCodeError]. *)
Record ErrorBody : Type := mkErrorBody { message : string }.

(** What a remote call fails with: [interface GhAppStatusCodeError],
    widened to any thrown object.  [name] is whatever the object carries
    there, and [error] is absent for objects that are not of that
    interface. *)
Record Reason : Type := mkReason {
  name : Js.value;
  statusCode : Js.value;
  error : option ErrorBody
}.

(** What a promise of this file can reject with. *)
Inductive Thrown : Type :=
| ThrownReason (r : Reason)
| ThrownErrorBody (e : ErrorBody)
| ThrownTypeError
| ThrownError (msg : string)
| ThrownExternal.

(** HEAD as tiny-commit-walker reports it. *)
Inductive HeadType : Type := TypeBranch | TypeCommit.

Record Commit : Type := mkCommit { hash : string }.

Record Branch : Type := mkBranch {
  branch_name : string;
  branch_commit : Commit
}.

Record Head : Type := mkHead {
  head_type : HeadType;
  head_branch : option Branch;
  head_commit : option Commit
}.

(** The repository object.  Its synchronous read of HEAD either returns a
    HEAD or throws, as it does when the reference cannot be read. *)
Record Repository : Type := mkRepository { readHeadSync : unit -> Thrown + Head }.

Record ComparisonResult : Type := mkComparisonResult {
  failedItems : list string;
  newItems : list string;
  deletedItems : list string;
  passedItems : list string
}.

Record NotifyParams : Type := mkNotifyParams {
  comparisonResult : ComparisonResult;
  reportUrl : option string
}.

Inductive State : Type := success | failure.

Record Metadata : Type := mkMetadata {
  md_failedItemsCount : nat;
  md_newItemsCount : nat;
  md_deletedItemsCount : nat;
  md_passedItemsCount : nat;
  md_shortDescription : Js.value
}.

Record UpdateStatusBody : Type := mkUpdateStatusBody {
  us_apiOpt : BaseEventBody;
  us_sha1 : string;
  us_description : string;
  us_state : State;
  us_reportUrl : option string;
  us_metadata : option Metadata
}.

Record CommentToPrBody : Type := mkCommentToPrBody {
  pc_apiOpt : BaseEventBody;
  behavior : Js.value;
  branchName : string;
  headOid : string;
  failedItemsCount : nat;
  newItemsCount : nat;
  deletedItemsCount : nat;
  passedItemsCount : nat;
  shortDescription : Js.value;
  regconfigId : Js.value;
  pc_reportUrl : option string
}.

(** *** The remote API *)

Record CreateCommitStatusArgs : Type := mkCreateCommitStatusArgs {
  cs_owner : Js.value;
  cs_repo : Js.value;
  cs_sha : string;
  cs_state : State;
  cs_description : string;
  cs_context : string;
  cs_target_url : option string
}.

Record PullsListArgs : Type := mkPullsListArgs {
  pl_owner : Js.value;
  pl_repo : Js.value;
  pl_head : string
}.

Record CreateCommentArgs : Type := mkCreateCommentArgs {
  cc_owner : Js.value;
  cc_repo : Js.value;
  cc_issue_number : Z;
  cc_body : string
}.

Record PullRequest : Type := mkPullRequest { pr_number : Z }.

(** One answer per endpoint: [notify] calls each endpoint at most once, so
    a function of the arguments describes any behaviour of the service. *)
Record Octokit : Type := mkOctokit {
  createCommitStatus : CreateCommitStatusArgs -> Reason + unit;
  pulls_list : PullsListArgs -> Reason + list PullRequest;
  createComment : CreateCommentArgs -> Reason + unit
}.

(** [logger.colors]: the only part of the logger that computes a value. *)
Record PluginLogger : Type := mkLogger {
  green : string -> string;
  yellow : string -> string;
  red : string -> string
}.

Record PluginCreateOptions : Type := mkConfig {
  noEmit : bool;
  logger : PluginLogger;
  options : GitHubPluginOption
}.

(** The instance fields of [class GitHubNotifierPlugin]. *)
Record GitHubNotifierPlugin : Type := mkPlugin {
  _logger : PluginLogger;
  _noEmit : bool;
  _apiOpt : BaseEventBody;
  _prComment : bool;
  _setCommitStatus : bool;
  _behavior : Js.value;
  _shortDescription : Js.value;
  _regconfigId : Js.value;
  _apiPrefix : Js.value;
  _repo : Repository;
  _octokit : Octokit
}.

(* ================================================================== *)
(** ** Observable events and the asynchronous monad *)

Inductive VerboseArg : Type :=
| ArgReportUrl (u : option string)
| ArgPr (pr : PullRequest).

Inductive Event : Type :=
| LogError (msg : string)
| LogInfo (msg : string)
| LogWarn (msg : string)
| LogVerbose (msg : string) (arg : VerboseArg)
| CallCreateCommitStatus (args : CreateCommitStatusArgs)
| CallPullsList (args : PullsListArgs)
| CallCreateComment (args : CreateCommentArgs)
| GetSpinner (text : string)
| SpinnerStart
| SpinnerStop.

Inductive Settled (E A : Type) : Type :=
| Fulfilled (a : A)
| Rejected (e : E).
Arguments Fulfilled {E A} a.
Arguments Rejected {E A} e.

Definition Async (E A : Type) : Type := (list Event * Settled E A)%type.

Definition ret {E A} (a : A) : Async E A := ([], Fulfilled a).

Definition reject {E A} (e : E) : Async E A := ([], Rejected e).

Definition bind {E A B} (m : Async E A) (f : A -> Async E B) : Async E B :=
  match m with
  | (t, Fulfilled a) => let (t', o) := f a in ((t ++ t')%list, o)
  | (t, Rejected e) => (t, Rejected e)
  end.

(** [try { m } catch (err) { h err }]. *)
Definition try_catch {E E' A} (m : Async E A) (h : E -> Async E' A) : Async E' A :=
  match m with
  | (t, Fulfilled a) => (t, Fulfilled a)
  | (t, Rejected e) => let (t', o) := h e in ((t ++ t')%list, o)
  end.

Definition emit {E} (e : Event) : Async E unit := ([e], Fulfilled tt).

(** [await] of a remote call: the call is recorded, then it settles. *)
Definition await_call {A} (e : Event) (answer : Reason + A) : Async Reason A :=
  ([e], match answer with inl r => Rejected r | inr a => Fulfilled a end).

Declare Scope async_scope.
Delimit Scope async_scope with async.
Notation "x <- m ;; k" := (bind m (fun x => k))
  (at level 61, m at next level, right associativity) : async_scope.
Notation "m ;; k" := (bind m (fun _ => k))
  (at level 61, right associativity) : async_scope.
Local Open Scope async_scope.

(* ================================================================== *)
(** ** The program *)

Definition isGhAppError (x : Reason) : bool :=
  Js.truthy (Js.and (name x) (Js.boolean (Js.strict_eq (name x) (Js.str "StatusCodeError")))).

Definition errorHandler (reason : Reason) : Async Thrown unit :=
  if isGhAppError reason then
    match error reason with
    | Some e => emit (LogError (message e)) ;; reject (ThrownErrorBody e)
    | None => reject ThrownTypeError
    end
  else reject (ThrownReason reason).

Definition _createCommentBody (body : CommentToPrBody) : string :=
  "Comparison result:" ++ nl ++
  "    - Failed items: " ++ Js.nat_to_string (failedItemsCount body) ++ nl ++
  "    - New items: " ++ Js.nat_to_string (newItemsCount body) ++ nl ++
  "    - Deleted items: " ++ Js.nat_to_string (deletedItemsCount body) ++ nl ++
  "    - Passed items: " ++ Js.nat_to_string (passedItemsCount body) ++ nl ++
  "    " ++ (if Js.truthy (shortDescription body)
             then " - Short descriptions enabled" else "") ++ nl ++
  "    " ++ (if Js.truthy_opt (pc_reportUrl body)
             then " - [Report URL](" ++ Js.to_string_opt (pc_reportUrl body) ++ ")"
             else "").

(** Lines 97 and 98 of [notify]. *)
Definition state_of (failedItemsCount newItemsCount deletedItemsCount : nat) : State :=
  if Nat.eqb (failedItemsCount + newItemsCount + deletedItemsCount) 0
  then success else failure.

Definition description_of (state : State) : string :=
  match state with
  | success => "Regression testing passed"
  | failure => "Regression testing failed"
  end.

(** Lines 101 to 108: the commit id of HEAD, if it has one. *)
Definition sha1_of (head : Head) : option string :=
  match head_branch head with
  | Some b => Some (hash (branch_commit b))
  | None =>
      match head_commit head with
      | Some c => Some (hash c)
      | None => None
      end
  end.

Definition spinner_text : string :=
  "せいせいせいせいsending notification to GitHub...".

Definition notify (this : GitHubNotifierPlugin) (params : NotifyParams)
  : Async Thrown unit :=
  match readHeadSync (_repo this) tt with
  | inl thrown => reject thrown
  | inr head =>
    let failedItemsCount := length (failedItems (comparisonResult params)) in
    let newItemsCount := length (newItems (comparisonResult params)) in
    let deletedItemsCount := length (deletedItems (comparisonResult params)) in
    let passedItemsCount := length (passedItems (comparisonResult params)) in
    let state := state_of failedItemsCount newItemsCount deletedItemsCount in
    let description := description_of state in
    match sha1_of head with
    | None =>
        emit (LogError "Can't detect HEAD branch or commit.") ;;
        ret tt
    | Some sha1 =>
        let updateStatusBody :=
          {| us_apiOpt := _apiOpt this;
             us_sha1 := sha1;
             us_description := description;
             us_state := state;
             us_reportUrl :=
               if Js.truthy_opt (reportUrl params) then reportUrl params else None;
             us_metadata :=
               if _prComment this then
                 Some {| md_failedItemsCount := failedItemsCount;
                         md_newItemsCount := newItemsCount;
                         md_deletedItemsCount := deletedItemsCount;
                         md_passedItemsCount := passedItemsCount;
                         md_shortDescription := _shortDescription this |}
               else None |} in
        (if _setCommitStatus this then
           try_catch
             (let args :=
                {| cs_owner := owner (_apiOpt this);
                   cs_repo := repository (_apiOpt this);
                   cs_sha := sha1;
                   cs_state := state;
                   cs_description := description;
                   cs_context := "regression-tests";
                   cs_target_url := reportUrl params |} in
              await_call (CallCreateCommitStatus args)
                         (createCommitStatus (_octokit this) args) ;;
              emit (LogInfo ("Updated commit status for "
                             ++ green (_logger this) sha1 ++ " .")))
             errorHandler
         else ret tt) ;;
        (if _prComment this then
           match head_type head, head_branch head with
           | TypeBranch, Some branch =>
               let prCommentBody :=
                 {| pc_apiOpt := _apiOpt this;
                    behavior := _behavior this;
                    branchName := branch_name branch;
                    headOid := sha1;
                    failedItemsCount := failedItemsCount;
                    newItemsCount := newItemsCount;
                    deletedItemsCount := deletedItemsCount;
                    passedItemsCount := passedItemsCount;
                    shortDescription := _shortDescription this;
                    regconfigId := _regconfigId this;
                    pc_reportUrl :=
                      if Js.truthy_opt (reportUrl params)
                      then reportUrl params else None |} in
               emit (LogVerbose "params.reportUrl: " (ArgReportUrl (reportUrl params))) ;;
               try_catch
                 (let largs :=
                    {| pl_owner := owner (_apiOpt this);
                       pl_repo := repository (_apiOpt this);
                       pl_head := Js.to_string (owner (_apiOpt this)) ++ ":"
                                  ++ branchName prCommentBody |} in
                  pulls <- await_call (CallPullsList largs)
                                      (pulls_list (_octokit this) largs) ;;
                  match pulls with
                  | pr :: _ =>
                      emit (LogVerbose "pr: " (ArgPr pr)) ;;
                      (let cargs :=
                         {| cc_owner := owner (_apiOpt this);
                            cc_repo := repository (_apiOpt this);
                            cc_issue_number := pr_number pr;
                            cc_body := _createCommentBody prCommentBody |} in
                       await_call (CallCreateComment cargs)
                                  (createComment (_octokit this) cargs)) ;;
                      emit (LogInfo
                              ("Commented on PR "
                               ++ green (_logger this)
                                    (Js.to_string (owner (_apiOpt this)) ++ "/"
                                     ++ Js.to_string (repository (_apiOpt this)) ++ "#"
                                     ++ NilZero.string_of_int (Z.to_int (pr_number pr)))
                               ++ " ."))
                  | [] =>
                      emit (LogWarn
                              ("No pull request found for branch "
                               ++ yellow (_logger this) (branchName prCommentBody)
                               ++ "."))
                  end)
                 errorHandler
           | _, _ => emit (LogWarn "HEAD is not attached into any branches.")
           end
         else ret tt) ;;
        if _noEmit this then ret tt
        else
          emit (GetSpinner spinner_text) ;;
          emit SpinnerStart ;;
          emit SpinnerStop
    end
  end.

(** *** Initialisation *)

Section Init.

(** The collaborators [init] constructs or consults. *)

(** [inflateRawSync(new Buffer(clientId, "base64")).toString()]; [None]
    when zlib throws. *)
Variable inflateRawSync_base64 : Js.value -> option string.
(** [getGhAppInfo().endpoint]. *)
Variable ghAppEndpoint : Js.value.
(** [new Repository(path.join(fsUtil.prjRootDir(".git"), ".git"))]. *)
Variable newRepository : Repository.
(** [new Octokit()]. *)
Variable newOctokit : Octokit.

(** An array element read by destructuring. *)
Definition element (l : list string) (i : nat) : Js.value :=
  match nth_error l i with
  | Some s => Js.str s
  | None => Js.undefined
  end.

Definition _decodeClientId (log : PluginLogger) (clientId : Js.value)
  : Async Thrown BaseEventBody :=
  match inflateRawSync_base64 clientId with
  | None => reject ThrownExternal
  | Some text =>
      let tmp := Js.split "/" text in
      if negb (Nat.eqb (length tmp) 4) then
        emit (LogError ("Invalid client ID: " ++ red log (Js.to_string clientId))) ;;
        reject (ThrownError ("Invalid client ID: " ++ Js.to_string clientId))
      else
        let rest := tl tmp in
        ret {| repository := element rest 0;
               installationId := element rest 1;
               owner := element rest 2 |}
  end.

Definition init (config : PluginCreateOptions)
  : Async Thrown GitHubNotifierPlugin :=
  apiOpt <-
    (if Js.truthy (opt_clientId (options config))
     then _decodeClientId (logger config) (opt_clientId (options config))
     else ret {| installationId := opt_installationId (options config);
                 owner := opt_owner (options config);
                 repository := opt_repository (options config) |}) ;;
  ret {| _logger := logger config;
         _noEmit := noEmit config;
         _apiOpt := apiOpt;
         _prComment :=
           Js.strict_neq (opt_prComment (options config)) (Js.boolean false);
         _behavior :=
           Js.coalesce (opt_prCommentBehavior (options config)) (Js.str "default");
         _setCommitStatus :=
           Js.strict_neq (opt_setCommitStatus (options config)) (Js.boolean false);
         _shortDescription :=
           Js.coalesce (opt_shortDescription (options config)) (Js.boolean false);
         _regconfigId :=
           Js.coalesce (opt_regconfigId (options config)) (Js.str "");
         _apiPrefix := Js.or (opt_customEndpoint (options config)) ghAppEndpoint;
         _repo := newRepository;
         _octokit := newOctokit |}.

End Init.

(* ================================================================== *)
(** ** Vocabulary for the statements *)

(** The trace and the outcome of a run. *)
Definition trace {E A} (m : Async E A) : list Event := fst m.
Definition outcome {E A} (m : Async E A) : Settled E A := snd m.

Definition is_remote_call (e : Event) : bool :=
  match e with
  | CallCreateCommitStatus _ | CallPullsList _ | CallCreateComment _ => true
  | _ => false
  end.

(** The calls that change something on the remote side. *)
Definition is_mutation (e : Event) : bool :=
  match e with
  | CallCreateCommitStatus _ | CallCreateComment _ => true
  | _ => false
  end.

(** The calls of the comment phase: the lookup and the post. *)
Definition is_comment_call (e : Event) : bool :=
  match e with
  | CallPullsList _ | CallCreateComment _ => true
  | _ => false
  end.

Definition is_comment_post (e : Event) : bool :=
  match e with
  | CallCreateComment _ => true
  | _ => false
  end.

Definition is_warning (e : Event) : bool :=
  match e with
  | LogWarn _ => true
  | _ => false
  end.

(** The reason with which a recorded remote call failed, if it did. *)
Definition failure_of (o : Octokit) (e : Event) : option Reason :=
  match e with
  | CallCreateCommitStatus a =>
      match createCommitStatus o a with inl r => Some r | inr _ => None end
  | CallPullsList a =>
      match pulls_list o a with inl r => Some r | inr _ => None end
  | CallCreateComment a =>
      match createComment o a with inl r => Some r | inr _ => None end
  | _ => None
  end.

Fixpoint failures (o : Octokit) (t : list Event) : list Reason :=
  match t with
  | [] => []
  | e :: t' =>
      match failure_of o e with
      | Some r => r :: failures o t'
      | None => failures o t'
      end
  end.

(** The arguments [notify] passes to "create commit status" for a commit. *)
Definition status_args (this : GitHubNotifierPlugin) (params : NotifyParams)
    (sha1 : string) : CreateCommitStatusArgs :=
  let cr := comparisonResult params in
  let state := state_of (length (failedItems cr)) (length (newItems cr))
                        (length (deletedItems cr)) in
  {| cs_owner := owner (_apiOpt this);
     cs_repo := repository (_apiOpt this);
     cs_sha := sha1;
     cs_state := state;
     cs_description := description_of state;
     cs_context := "regression-tests";
     cs_target_url := reportUrl params |}.

(** The arguments [notify] passes to "list pull requests" for a branch. *)
Definition lookup_args (this : GitHubNotifierPlugin) (b : Branch) : PullsListArgs :=
  {| pl_owner := owner (_apiOpt this);
     pl_repo := repository (_apiOpt this);
     pl_head := Js.to_string (owner (_apiOpt this)) ++ ":" ++ branch_name b |}.

(** The commit id a reading of HEAD resolves to, if any. *)
Definition sha1_of_reading (reading : Thrown + Head) : option string :=
  match reading with
  | inl _ => None
  | inr h => sha1_of h
  end.

(** HEAD is detached: it names a commit and no branch. *)
Definition detached (h : Head) (c : Commit) : Prop :=
  head_branch h = None /\ head_commit h = Some c.

(** HEAD is on a branch. *)
Definition on_branch (h : Head) (b : Branch) : Prop :=
  head_type h = TypeBranch /\ head_branch h = Some b.

(** The plugin with its dry-run flag replaced. *)
Definition with_noEmit (dry : bool) (this : GitHubNotifierPlugin)
  : GitHubNotifierPlugin :=
  {| _logger := _logger this;
     _noEmit := dry;
     _apiOpt := _apiOpt this;
     _prComment := _prComment this;
     _setCommitStatus := _setCommitStatus this;
     _behavior := _behavior this;
     _shortDescription := _shortDescription this;
     _regconfigId := _regconfigId this;
     _apiPrefix := _apiPrefix this;
     _repo := _repo this;
     _octokit := _octokit this |}.

(** Splitting a text into its lines. *)
Definition lines (s : string) : list string := Js.split LF s.

Fixpoint no_LF (s : string) : bool :=
  match s with
  | EmptyString => true
  | String c rest => negb (Ascii.eqb c LF) && no_LF rest
  end.

(** The number of occurrences of a character in a text. *)
Fixpoint count_char (sep : ascii) (s : string) : nat :=
  match s with
  | EmptyString => 0
  | String c rest => (if Ascii.eqb c sep then 1 else 0) + count_char sep rest
  end.

(** The text is free of a character. *)
Fixpoint no_char (sep : ascii) (s : string) : bool :=
  match s with
  | EmptyString => true
  | String c rest => negb (Ascii.eqb c sep) && no_char sep rest
  end.

(** The payload [notify] renders the comment from, on a branch. *)
Definition comment_payload (this : GitHubNotifierPlugin) (params : NotifyParams)
    (b : Branch) : CommentToPrBody :=
  {| pc_apiOpt := _apiOpt this;
     behavior := _behavior this;
     branchName := branch_name b;
     headOid := hash (branch_commit b);
     failedItemsCount := length (failedItems (comparisonResult params));
     newItemsCount := length (newItems (comparisonResult params));
     deletedItemsCount := length (deletedItems (comparisonResult params));
     passedItemsCount := length (passedItems (comparisonResult params));
     shortDescription := _shortDescription this;
     regconfigId := _regconfigId this;
     pc_reportUrl :=
       if Js.truthy_opt (reportUrl params) then reportUrl params else None |}.

(** The arguments [notify] passes to "create comment" for a pull request. *)
Definition comment_args (this : GitHubNotifierPlugin) (params : NotifyParams)
    (b : Branch) (pr : PullRequest) : CreateCommentArgs :=
  {| cc_owner := owner (_apiOpt this);
     cc_repo := repository (_apiOpt this);
     cc_issue_number := pr_number pr;
     cc_body := _createCommentBody (comment_payload this params b) |}.

(** The two success messages of [notify]. *)
Definition updated_message (this : GitHubNotifierPlugin) (sha1 : string) : string :=
  "Updated commit status for " ++ green (_logger this) sha1 ++ " .".

Definition commented_message (this : GitHubNotifierPlugin) (pr : PullRequest)
  : string :=
  "Commented on PR "
  ++ green (_logger this)
       (Js.to_string (owner (_apiOpt this)) ++ "/"
        ++ Js.to_string (repository (_apiOpt this)) ++ "#"
        ++ NilZero.string_of_int (Z.to_int (pr_number pr)))
  ++ " .".

Definition is_spinner (e : Event) : bool :=
  match e with
  | GetSpinner _ | SpinnerStart | SpinnerStop => true
  | _ => false
  end.

(** The plugin with the fields [notify] carries but never acts on replaced:
    the comment behavior, the regconfig id, the API prefix and the
    installation id. *)
Definition with_passive_fields (behavior' regconfigId' apiPrefix' installationId' : Js.value)
    (this : GitHubNotifierPlugin) : GitHubNotifierPlugin :=
  {| _logger := _logger this;
     _noEmit := _noEmit this;
     _apiOpt := {| installationId := installationId';
                   owner := owner (_apiOpt this);
                   repository := repository (_apiOpt this) |};
     _prComment := _prComment this;
     _setCommitStatus := _setCommitStatus this;
     _behavior := behavior';
     _shortDescription := _shortDescription this;
     _regconfigId := regconfigId';
     _apiPrefix := apiPrefix';
     _repo := _repo this;
     _octokit := _octokit this |}.

(* ================================================================== *)
(** ** Concrete runs used as examples *)

Module Sample.

Definition plain : PluginLogger :=
  {| green := fun s => s; yellow := fun s => s; red := fun s => s |}.

Definition target : BaseEventBody :=
  {| installationId := Js.undefined;
     owner := Js.str "acme";
     repository := Js.str "site" |}.

Definition tip : Commit := {| hash := "0a1b2c3" |}.

Definition feature : Branch := {| branch_name := "feature"; branch_commit := tip |}.

Definition head_on_branch : Head :=
  {| head_type := TypeBranch; head_branch := Some feature; head_commit := None |}.

Definition head_detached : Head :=
  {| head_type := TypeCommit; head_branch := None; head_commit := Some tip |}.

Definition head_unresolved : Head :=
  {| head_type := TypeCommit; head_branch := None; head_commit := None |}.

Definition bad_credentials : Reason :=
  {| name := Js.str "StatusCodeError";
     statusCode := Js.number 401;
     error := Some {| message := "bad credentials" |} |}.

Definition network_down : Reason :=
  {| name := Js.str "FetchError"; statusCode := Js.undefined; error := None |}.

(** A service on which every call succeeds and one pull request is open. *)
Definition healthy : Octokit :=
  {| createCommitStatus := fun _ => inr tt;
     pulls_list := fun _ => inr [ {| pr_number := 7 |} ];
     createComment := fun _ => inr tt |}.

(** The same service refusing the commit-status update. *)
Definition status_refused : Octokit :=
  {| createCommitStatus := fun _ => inl bad_credentials;
     pulls_list := fun _ => inr [ {| pr_number := 7 |} ];
     createComment := fun _ => inr tt |}.

(** A service whose pull-request listing cannot be reached. *)
Definition lookup_unreachable : Octokit :=
  {| createCommitStatus := fun _ => inr tt;
     pulls_list := fun _ => inl network_down;
     createComment := fun _ => inr tt |}.

(** A service with no open pull request. *)
Definition no_pull_request : Octokit :=
  {| createCommitStatus := fun _ => inr tt;
     pulls_list := fun _ => inr [];
     createComment := fun _ => inr tt |}.

Definition plugin (dry status comment : bool) (h : Head) (o : Octokit)
  : GitHubNotifierPlugin :=
  {| _logger := plain;
     _noEmit := dry;
     _apiOpt := target;
     _prComment := comment;
     _setCommitStatus := status;
     _behavior := Js.str "default";
     _shortDescription := Js.boolean false;
     _regconfigId := Js.str "";
     _apiPrefix := Js.str "https://example.invalid";
     _repo := {| readHeadSync := fun _ => inr h |};
     _octokit := o |}.

(** A plugin whose repository cannot read HEAD. *)
Definition plugin_unreadable (dry status comment : bool) (o : Octokit)
  : GitHubNotifierPlugin :=
  {| _logger := plain;
     _noEmit := dry;
     _apiOpt := target;
     _prComment := comment;
     _setCommitStatus := status;
     _behavior := Js.str "default";
     _shortDescription := Js.boolean false;
     _regconfigId := Js.str "";
     _apiPrefix := Js.str "https://example.invalid";
     _repo := {| readHeadSync := fun _ => inl ThrownExternal |};
     _octokit := o |}.

(** A failure that claims to be structured but has no inner error, and a
    service that refuses the commit-status update with it. *)
Definition hollow_status_error : Reason :=
  {| name := Js.str "StatusCodeError"; statusCode := Js.number 500; error := None |}.

Definition status_hollow : Octokit :=
  {| createCommitStatus := fun _ => inl hollow_status_error;
     pulls_list := fun _ => inr [ {| pr_number := 7 |} ];
     createComment := fun _ => inr tt |}.

(** A service that cannot be reached for the commit-status update. *)
Definition status_unreachable : Octokit :=
  {| createCommitStatus := fun _ => inl network_down;
     pulls_list := fun _ => inr [ {| pr_number := 7 |} ];
     createComment := fun _ => inr tt |}.

Definition params : NotifyParams :=
  {| comparisonResult :=
       {| failedItems := ["a.png"; "b.png"];
          newItems := [];
          deletedItems := ["c.png"];
          passedItems := ["d.png"; "e.png"; "f.png"; "g.png"; "h.png"] |};
     reportUrl := None |}.

Definition body : CommentToPrBody :=
  {| pc_apiOpt := target;
     behavior := Js.str "default";
     branchName := "feature";
     headOid := "0a1b2c3";
     failedItemsCount := 2;
     newItemsCount := 0;
     deletedItemsCount := 1;
     passedItemsCount := 5;
     shortDescription := Js.boolean false;
     regconfigId := Js.str "";
     pc_reportUrl := None |}.

Definition body_full : CommentToPrBody :=
  {| pc_apiOpt := target;
     behavior := Js.str "default";
     branchName := "feature";
     headOid := "0a1b2c3";
     failedItemsCount := 2;
     newItemsCount := 0;
     deletedItemsCount := 1;
     passedItemsCount := 5;
     shortDescription := Js.boolean true;
     regconfigId := Js.str "";
     pc_reportUrl := Some "https://reports.example/run/42" |}.

Definition no_options : GitHubPluginOption :=
  {| opt_clientId := Js.undefined;
     opt_installationId := Js.undefined;
     opt_owner := Js.str "acme";
     opt_repository := Js.str "site";
     opt_regconfigId := Js.undefined;
     opt_prComment := Js.undefined;
     opt_prCommentBehavior := Js.undefined;
     opt_setCommitStatus := Js.undefined;
     opt_customEndpoint := Js.undefined;
     opt_shortDescription := Js.undefined |}.

Definition config : PluginCreateOptions :=
  {| noEmit := false; logger := plain; options := no_options |}.

End Sample.

(* ================================================================== *)
(** ** Proof support *)

Arguments state_of : simpl never.
Arguments description_of : simpl never.
Arguments isGhAppError : simpl never.
Arguments _createCommentBody : simpl never.
Arguments Js.to_string : simpl never.
Arguments NilZero.string_of_int : simpl never.

(** Unfold a run of [notify] and split on every test and every answer of
    the remote service it meets, in program order. *)
Ltac split_run :=
  repeat match goal with
    | H : ?x = _ |- context [match ?x with _ => _ end] => rewrite H; cbn
    | |- context [match ?x with _ => _ end] =>
        let T := type of x in
        lazymatch T with
        | bool => destruct x eqn:?
        | option _ => destruct x eqn:?
        | sum _ _ => destruct x eqn:?
        | list PullRequest => destruct x eqn:?
        | HeadType => destruct x eqn:?
        | unit => destruct x
        end; cbn
    | |- context [if ?x then _ else _] => destruct x eqn:?; cbn
    end.

Ltac run_notify :=
  unfold trace, outcome, notify, sha1_of, errorHandler;
  unfold try_catch, bind, await_call, emit, ret, reject;
  cbn; split_run.

(** Cut an explicit trace after its first [n] events and check that the
    next one is a remote call that failed and that the handler's doing is
    all that follows. *)
Ltac cut_at n :=
  match goal with
  | |- exists t a, _ =>
      match goal with
      | |- context [?l = (_ ++ _)%list] =>
          exists (firstn n l), (nth n l SpinnerStart); cbn
      end;
      split;
      [ repeat match goal with
          | H : ?x = _ |- context [match ?x with _ => _ end] => rewrite H
          end;
        reflexivity
      | repeat split; intros;
        try congruence;
        repeat match goal with
          | H : Some _ = Some _ |- _ => injection H as H; subst
          end;
        reflexivity ]
  end.

(** Find an event in an explicit trace. *)
Ltac find_event := cbn; repeat (first [left; reflexivity | right]).

(** Settle a membership of an event in an explicit trace. *)
Ltac in_trace H :=
  cbn in H;
  repeat match type of H with
    | _ \/ _ => destruct H as [H | H]
    end;
  try discriminate H; try contradiction H.

Lemma state_of_status_args this params sha :
  cs_state (status_args this params sha)
  = state_of (length (failedItems (comparisonResult params)))
             (length (newItems (comparisonResult params)))
             (length (deletedItems (comparisonResult params)))
  /\ cs_description (status_args this params sha)
     = description_of
         (state_of (length (failedItems (comparisonResult params)))
                   (length (newItems (comparisonResult params)))
                   (length (deletedItems (comparisonResult params)))).
Proof. split; reflexivity. Qed.

(** Whatever "create commit status" call a run records carries the
    arguments [status_args] of the commit HEAD resolves to. *)
Lemma status_call_args this params a :
  In (CallCreateCommitStatus a) (trace (notify this params)) ->
  _setCommitStatus this = true /\
  exists h sha, readHeadSync (_repo this) tt = inr h
                /\ sha1_of h = Some sha
                /\ a = status_args this params sha.
Proof.
  unfold status_args.
  run_notify; intro H; in_trace H;
    injection H as <-;
    (split; [reflexivity | do 2 eexists; split; [reflexivity |]]);
    unfold sha1_of;
    repeat match goal with
      | E : ?x = _ |- context [match ?x with _ => _ end] => rewrite E
      end;
    (split; [first [eassumption | reflexivity] | reflexivity]).
Qed.

(** The test of the handler is a test of the failure's [name]. *)
Lemma isGhAppError_iff r :
  isGhAppError r = true <-> name r = Js.str "StatusCodeError".
Proof.
  unfold isGhAppError, Js.and.
  destruct (name r) as [| | [|] | z | s]; cbn;
    try (split; intro H; discriminate H).
  - destruct (Z.eqb z 0) eqn:E; cbn; rewrite ?E; cbn;
      split; intro H; discriminate H.
  - destruct (String.eqb_spec s "") as [-> | Hs]; cbn.
    + split; intro H; discriminate H.
    + rewrite String.eqb_eq. split; [intros -> | intros [= ->]]; reflexivity.
Qed.

Lemma isGhAppError_false_iff r :
  isGhAppError r = false <-> name r <> Js.str "StatusCodeError".
Proof.
  rewrite <- isGhAppError_iff. destruct (isGhAppError r); split; congruence.
Qed.

(** What the handler does, by the failure's [name] and inner [error]. *)
Lemma errorHandler_run r :
  (name r = Js.str "StatusCodeError" ->
   forall b, error r = Some b ->
             errorHandler r = ([LogError (message b)], Rejected (ThrownErrorBody b))) /\
  (name r = Js.str "StatusCodeError" -> error r = None ->
   errorHandler r = ([], Rejected ThrownTypeError)) /\
  (name r <> Js.str "StatusCodeError" ->
   errorHandler r = ([], Rejected (ThrownReason r))).
Proof.
  unfold errorHandler. repeat split.
  - intros Hn b Hb. apply isGhAppError_iff in Hn. rewrite Hn, Hb. reflexivity.
  - intros Hn Hb. apply isGhAppError_iff in Hn. rewrite Hn, Hb. reflexivity.
  - intro Hn. apply isGhAppError_false_iff in Hn. rewrite Hn. reflexivity.
Qed.

(** State the tests a run made on a failure as facts about its [name]. *)
Ltac name_failure :=
  repeat match goal with
    | H : isGhAppError _ = true |- _ => apply isGhAppError_iff in H
    | H : isGhAppError _ = false |- _ => apply isGhAppError_false_iff in H
    end.

(* ================================================================== *)
(** ** Outcome classification *)

(** C4.  For all item counts the state is [failure] exactly when
    failed + new + deleted is positive and [success] otherwise, whatever
    the number of passed items; the description is the fixed text
    "Regression testing passed" for [success] and
    "Regression testing failed" for [failure], with no count in it; and
    these are the state and description every commit-status call of
    [notify] carries for a comparison result with those counts. *)
Theorem outcome_state_and_description (failed new deleted passed : nat) :
  let st := state_of failed new deleted in
  (st = failure <-> failed + new + deleted > 0) /\
  (st = success <-> failed + new + deleted = 0) /\
  (st = success -> description_of st = "Regression testing passed") /\
  (st = failure -> description_of st = "Regression testing failed") /\
  (forall this params a,
      length (failedItems (comparisonResult params)) = failed ->
      length (newItems (comparisonResult params)) = new ->
      length (deletedItems (comparisonResult params)) = deleted ->
      length (passedItems (comparisonResult params)) = passed ->
      In (CallCreateCommitStatus a) (trace (notify this params)) ->
      cs_state a = st /\ cs_description a = description_of st).
Proof.
  cbv zeta.
  assert (Hcall : forall this params a,
             length (failedItems (comparisonResult params)) = failed ->
             length (newItems (comparisonResult params)) = new ->
             length (deletedItems (comparisonResult params)) = deleted ->
             length (passedItems (comparisonResult params)) = passed ->
             In (CallCreateCommitStatus a) (trace (notify this params)) ->
             cs_state a = state_of failed new deleted /\
             cs_description a = description_of (state_of failed new deleted)).
  { intros this params a <- <- <- _ H.
    apply status_call_args in H as (_ & h & sha & _ & _ & ->).
    apply state_of_status_args. }
  unfold state_of in *.
  destruct (Nat.eqb_spec (failed + new + deleted) 0) as [E | E];
    repeat split; try reflexivity; try discriminate; try lia;
    try (intros; eapply Hcall; eassumption).
Qed.

(* ================================================================== *)
(** ** HEAD that cannot be resolved *)

(** C6, as the code has it.  When the repository returns a HEAD that
    carries neither a branch nor a commit, [notify] logs
    "Can't detect HEAD branch or commit." at error level, performs no
    remote call, and its promise is fulfilled.  When the repository cannot
    read HEAD and throws, [notify] logs nothing, performs no remote call,
    and its promise is rejected with what the repository threw. *)
Theorem notify_unresolved_head this params :
  (forall h,
      readHeadSync (_repo this) tt = inr h ->
      head_branch h = None -> head_commit h = None ->
      notify this params
      = ([LogError "Can't detect HEAD branch or commit."], Fulfilled tt)) /\
  (forall thrown,
      readHeadSync (_repo this) tt = inl thrown ->
      notify this params = ([], Rejected thrown)) /\
  (sha1_of_reading (readHeadSync (_repo this) tt) = None ->
   forall e, In e (trace (notify this params)) -> is_remote_call e = false).
Proof.
  repeat split.
  - intros h Hh Hb Hc. unfold notify, sha1_of. rewrite Hh, Hb, Hc. reflexivity.
  - intros thrown Hh. unfold notify. rewrite Hh. reflexivity.
  - unfold sha1_of_reading, trace, notify.
    destruct (readHeadSync (_repo this) tt) as [thrown | h]; cbn.
    + intros _ e [].
    + intros -> e H. in_trace H. subst e. reflexivity.
Qed.

Lemma notify_unresolved_head_witness :
  notify (Sample.plugin false true true Sample.head_unresolved Sample.healthy)
         Sample.params
  = ([LogError "Can't detect HEAD branch or commit."], Fulfilled tt)
  /\ notify (Sample.plugin_unreadable false true true Sample.healthy) Sample.params
     = ([], Rejected ThrownExternal).
Proof.
  split.
  - exact (proj1 (notify_unresolved_head
                    (Sample.plugin false true true Sample.head_unresolved
                                   Sample.healthy)
                    Sample.params)
                 Sample.head_unresolved eq_refl eq_refl eq_refl).
  - exact (proj1 (proj2 (notify_unresolved_head
                           (Sample.plugin_unreadable false true true Sample.healthy)
                           Sample.params))
                 ThrownExternal eq_refl).
Defined.

(** C6, as stated, fails: when the repository cannot read HEAD, the
    promise of [notify] is rejected and nothing is logged. *)
Lemma unreadable_head_rejects :
  readHeadSync (_repo (Sample.plugin_unreadable false true true Sample.healthy)) tt
  = inl ThrownExternal /\
  outcome (notify (Sample.plugin_unreadable false true true Sample.healthy)
                  Sample.params)
  = Rejected ThrownExternal /\
  trace (notify (Sample.plugin_unreadable false true true Sample.healthy)
                Sample.params) = [].
Proof. repeat split. Qed.

(* ================================================================== *)
(** ** Both phases disabled *)

(** C9.  With setCommitStatus and prComment both off and a HEAD that
    resolves to a commit, [notify] performs no remote call, records no
    failure, and its promise is fulfilled. *)
Theorem notify_nothing_enabled this params h sha :
  _setCommitStatus this = false ->
  _prComment this = false ->
  readHeadSync (_repo this) tt = inr h ->
  sha1_of h = Some sha ->
  (forall e, In e (trace (notify this params)) -> is_remote_call e = false) /\
  failures (_octokit this) (trace (notify this params)) = [] /\
  outcome (notify this params) = Fulfilled tt.
Proof.
  intros Hs Hc Hh Hsha.
  unfold trace, outcome, notify. rewrite Hh, Hsha, Hs, Hc.
  destruct (_noEmit this); cbn; repeat split; try reflexivity;
    intros e H; in_trace H; subst e; reflexivity.
Qed.

Lemma notify_nothing_enabled_witness :
  (forall e,
      In e (trace (notify (Sample.plugin false false false Sample.head_detached
                                         Sample.status_refused) Sample.params)) ->
      is_remote_call e = false) /\
  failures Sample.status_refused
           (trace (notify (Sample.plugin false false false Sample.head_detached
                                         Sample.status_refused) Sample.params)) = [] /\
  outcome (notify (Sample.plugin false false false Sample.head_detached
                                 Sample.status_refused) Sample.params)
  = Fulfilled tt.
Proof.
  apply (notify_nothing_enabled
           (Sample.plugin false false false Sample.head_detached Sample.status_refused)
           Sample.params Sample.head_detached "0a1b2c3"); reflexivity.
Defined.

(* ================================================================== *)
(** ** Defaults set by [init] *)

Lemma strict_neq_false_iff v :
  Js.strict_neq v (Js.boolean false) = true <-> v <> Js.boolean false.
Proof.
  unfold Js.strict_neq.
  destruct v as [| | [|] | z | s]; cbn; split; intro H;
    try reflexivity; try discriminate; try congruence.
Qed.

(** C10.  [init] completes whenever no client id is given, and whenever
    it completes: prComment and setCommitStatus are on unless the option
    is the literal [false] (so also when it is absent or any other
    value); the comment behavior is "default", shortDescription is
    [false] and regconfigId is the empty string when the option is absent
    ([undefined], and likewise [null]), and the given value otherwise. *)
Theorem init_policy_defaults inflate endpoint repo octo (config : PluginCreateOptions) :
  (Js.truthy (opt_clientId (options config)) = false ->
   exists this, init inflate endpoint repo octo config = ([], Fulfilled this)) /\
  (forall this,
      outcome (init inflate endpoint repo octo config) = Fulfilled this ->
      (_prComment this = true <-> opt_prComment (options config) <> Js.boolean false) /\
      (_setCommitStatus this = true
       <-> opt_setCommitStatus (options config) <> Js.boolean false) /\
      _behavior this
      = match opt_prCommentBehavior (options config) with
        | Js.undefined | Js.null => Js.str "default"
        | v => v
        end /\
      _shortDescription this
      = match opt_shortDescription (options config) with
        | Js.undefined | Js.null => Js.boolean false
        | v => v
        end /\
      _regconfigId this
      = match opt_regconfigId (options config) with
        | Js.undefined | Js.null => Js.str ""
        | v => v
        end).
Proof.
  split.
  - intro H. unfold init. rewrite H. cbn. eexists. reflexivity.
  - intros this. unfold outcome, init, _decodeClientId.
    unfold bind, emit, ret, reject.
    destruct (Js.truthy (opt_clientId (options config)));
      [destruct (inflate (opt_clientId (options config)));
       [destruct (negb (length (Js.split "/" s) =? 4)%nat) |] |];
      cbn; intro H; try discriminate H;
      inversion H; subst this; cbn;
      repeat split; try apply strict_neq_false_iff;
      try (destruct (opt_prCommentBehavior (options config)); reflexivity);
      try (destruct (opt_shortDescription (options config)); reflexivity);
      try (destruct (opt_regconfigId (options config)); reflexivity).
Qed.

(* ================================================================== *)
(** ** Failures of the remote service *)

(** The handler never lets the promise be fulfilled. *)
Lemma errorHandler_rejects r : exists x, outcome (errorHandler r) = Rejected x.
Proof.
  unfold outcome, errorHandler.
  destruct (isGhAppError r); [destruct (error r) |]; cbn; eexists; reflexivity.
Qed.

(** The handler logs at most the message of a structured error. *)
Lemma errorHandler_trace r e :
  In e (trace (errorHandler r)) ->
  exists b, isGhAppError r = true /\ error r = Some b /\ e = LogError (message b).
Proof.
  unfold trace, errorHandler.
  destruct (isGhAppError r); [destruct (error r) eqn:E |]; cbn; intro H;
    in_trace H.
  subst e. eexists. repeat split.
Qed.

(** A failing commit-status update ends the run. *)
Lemma status_failure_run this params h sha r :
  readHeadSync (_repo this) tt = inr h ->
  _setCommitStatus this = true ->
  sha1_of h = Some sha ->
  createCommitStatus (_octokit this) (status_args this params sha) = inl r ->
  notify this params
  = (CallCreateCommitStatus (status_args this params sha) :: trace (errorHandler r),
     outcome (errorHandler r)).
Proof.
  intros Hh Hs Hsha Hr. unfold notify. rewrite Hh, Hsha, Hs.
  unfold status_args in Hr. cbn in Hr.
  unfold try_catch, bind, await_call, emit. cbn. rewrite Hr.
  destruct (errorHandler_rejects r) as [x Hx].
  unfold trace, outcome in *.
  destruct (errorHandler r) as [t o]. cbn in *. subst o. reflexivity.
Qed.

(** C1, as the code has it.  When the commit-status update is enabled
    and the remote call fails, the run is that call followed by what the
    handler does, and nothing else.  A failure named "StatusCodeError"
    with an inner error has the inner message logged at error level and
    [notify] rejects with the inner error.  A failure so named without an
    inner error is not logged and [notify] rejects with a type error.  Any
    other failure is not logged and [notify] rejects with the failure
    itself.  In every case the comment phase is not attempted: neither the
    pull-request lookup nor the comment post is called. *)
Theorem status_failure_ends_notify this params h sha r :
  readHeadSync (_repo this) tt = inr h ->
  _setCommitStatus this = true ->
  sha1_of h = Some sha ->
  createCommitStatus (_octokit this) (status_args this params sha) = inl r ->
  (name r = Js.str "StatusCodeError" ->
   forall b, error r = Some b ->
     notify this params
     = ([CallCreateCommitStatus (status_args this params sha);
         LogError (message b)],
        Rejected (ThrownErrorBody b))) /\
  (name r = Js.str "StatusCodeError" -> error r = None ->
   notify this params
   = ([CallCreateCommitStatus (status_args this params sha)],
      Rejected ThrownTypeError)) /\
  (name r <> Js.str "StatusCodeError" ->
   notify this params
   = ([CallCreateCommitStatus (status_args this params sha)],
      Rejected (ThrownReason r))) /\
  (exists x, outcome (notify this params) = Rejected x) /\
  (forall e, In e (trace (notify this params)) -> is_comment_call e = false).
Proof.
  intros Hh Hs Hsha Hr.
  rewrite (status_failure_run this params h sha r Hh Hs Hsha Hr).
  destruct (errorHandler_run r) as (Hbody & Htype & Hreason).
  repeat split.
  - intros Hn b Hb. rewrite (Hbody Hn b Hb). reflexivity.
  - intros Hn Hb. rewrite (Htype Hn Hb). reflexivity.
  - intros Hn. rewrite (Hreason Hn). reflexivity.
  - apply errorHandler_rejects.
  - unfold trace at 1. cbn [fst].
    intros e [<- | H]; [reflexivity |].
    apply errorHandler_trace in H as (b & _ & _ & ->). reflexivity.
Qed.

Lemma status_failure_ends_notify_witness :
  notify (Sample.plugin false true true Sample.head_on_branch Sample.status_refused)
         Sample.params
  = ([CallCreateCommitStatus
        (status_args (Sample.plugin false true true Sample.head_on_branch
                                    Sample.status_refused) Sample.params "0a1b2c3");
      LogError "bad credentials"],
     Rejected (ThrownErrorBody {| message := "bad credentials" |})) /\
  notify (Sample.plugin false true true Sample.head_on_branch Sample.status_hollow)
         Sample.params
  = ([CallCreateCommitStatus
        (status_args (Sample.plugin false true true Sample.head_on_branch
                                    Sample.status_hollow) Sample.params "0a1b2c3")],
     Rejected ThrownTypeError) /\
  notify (Sample.plugin false true true Sample.head_on_branch
                        Sample.status_unreachable)
         Sample.params
  = ([CallCreateCommitStatus
        (status_args (Sample.plugin false true true Sample.head_on_branch
                                    Sample.status_unreachable)
                     Sample.params "0a1b2c3")],
     Rejected (ThrownReason Sample.network_down)).
Proof.
  split; [| split].
  - exact (proj1 (status_failure_ends_notify
                    (Sample.plugin false true true Sample.head_on_branch
                                   Sample.status_refused)
                    Sample.params Sample.head_on_branch "0a1b2c3"
                    Sample.bad_credentials eq_refl eq_refl eq_refl eq_refl)
                 eq_refl {| message := "bad credentials" |} eq_refl).
  - exact (proj1 (proj2 (status_failure_ends_notify
                           (Sample.plugin false true true Sample.head_on_branch
                                          Sample.status_hollow)
                           Sample.params Sample.head_on_branch "0a1b2c3"
                           Sample.hollow_status_error
                           eq_refl eq_refl eq_refl eq_refl))
                 eq_refl eq_refl).
  - apply (proj1 (proj2 (proj2 (status_failure_ends_notify
                                  (Sample.plugin false true true Sample.head_on_branch
                                                 Sample.status_unreachable)
                                  Sample.params Sample.head_on_branch "0a1b2c3"
                                  Sample.network_down
                                  eq_refl eq_refl eq_refl eq_refl)))).
    discriminate.
Defined.

(** C1, as stated, fails: commit-status update and commenting are both
    enabled, HEAD is on a branch, the status call is refused, and the run
    contains no call of the comment phase. *)
Lemma status_failure_blocks_comment :
  _setCommitStatus (Sample.plugin false true true Sample.head_on_branch
                                  Sample.status_refused) = true /\
  _prComment (Sample.plugin false true true Sample.head_on_branch
                            Sample.status_refused) = true /\
  on_branch Sample.head_on_branch Sample.feature /\
  createCommitStatus Sample.status_refused
    (status_args (Sample.plugin false true true Sample.head_on_branch
                                Sample.status_refused) Sample.params "0a1b2c3")
  = inl Sample.bad_credentials /\
  ~ (exists e,
        In e (trace (notify (Sample.plugin false true true Sample.head_on_branch
                                           Sample.status_refused) Sample.params))
        /\ is_comment_call e = true).
Proof.
  repeat split.
  intros (e & H & Hc). vm_compute in H.
  destruct H as [<- | [<- | []]]; discriminate Hc.
Qed.

(** C2, as the code has it.  When the repository throws on reading
    HEAD, [notify] rejects with what was thrown, before any log or remote
    call.  Otherwise [notify] is fulfilled exactly when no remote call it
    made failed.  When one failed, it is the only one that failed and the
    last call made, and what follows it is the handler's doing alone: a
    failure named "StatusCodeError" with an inner error has its inner
    message logged at error level and [notify] rejects with the inner
    error; one so named without an inner error makes [notify] reject with
    a type error; any other failure makes [notify] reject with the failure
    itself; and no other error is logged.  No list of failures is
    returned. *)
Theorem notify_settles this params :
  match readHeadSync (_repo this) tt with
  | inl thrown => notify this params = ([], Rejected thrown)
  | inr _ =>
      match failures (_octokit this) (trace (notify this params)) with
      | [] => outcome (notify this params) = Fulfilled tt
      | r :: more =>
          more = [] /\
          (exists t a,
              failure_of (_octokit this) a = Some r /\
              (name r = Js.str "StatusCodeError" ->
               forall b, error r = Some b ->
                 trace (notify this params) = (t ++ [a; LogError (message b)])%list /\
                 outcome (notify this params) = Rejected (ThrownErrorBody b)) /\
              (name r = Js.str "StatusCodeError" -> error r = None ->
               trace (notify this params) = (t ++ [a])%list /\
               outcome (notify this params) = Rejected ThrownTypeError) /\
              (name r <> Js.str "StatusCodeError" ->
               trace (notify this params) = (t ++ [a])%list /\
               outcome (notify this params) = Rejected (ThrownReason r))) /\
          (forall msg,
              In (LogError msg) (trace (notify this params)) ->
              exists b, name r = Js.str "StatusCodeError" /\ error r = Some b
                        /\ msg = message b)
      end
  end.
Proof.
  run_notify.
  all: unfold failures, failure_of; cbn; split_run.
  all: try reflexivity.
  all: name_failure.
  all: repeat match goal with |- _ /\ _ => split end.
  all: try reflexivity.
  all: try solve [intros ? H; in_trace H; injection H as <-;
                  eexists; repeat split; eassumption].
  all: first [ solve [cut_at 0%nat] | solve [cut_at 1%nat] | solve [cut_at 2%nat]
             | solve [cut_at 3%nat] | solve [cut_at 4%nat] | solve [cut_at 5%nat]
             | solve [cut_at 6%nat] ].
Qed.

(** C2, as stated, fails: with the pull-request listing unreachable the
    promise of [notify] is rejected, nothing is returned as data, and the
    failure is not even logged at error level. *)
Lemma notify_can_reject :
  outcome (notify (Sample.plugin false false true Sample.head_on_branch
                                 Sample.lookup_unreachable) Sample.params)
  = Rejected (ThrownReason Sample.network_down) /\
  ~ (exists msg,
        In (LogError msg)
           (trace (notify (Sample.plugin false false true Sample.head_on_branch
                                         Sample.lookup_unreachable) Sample.params))).
Proof.
  split; [reflexivity |].
  intros (msg & H). vm_compute in H.
  destruct H as [H | [H | []]]; discriminate H.
Qed.

(* ================================================================== *)
(** ** Dry run *)

(** C3, at the failing input.  With [noEmit] set, commit status and
    commenting enabled, HEAD on a branch and a pull request open,
    [notify] still issues both remote mutations, the commit-status update
    and the comment post; the flag only decides whether the spinner is
    shown after them. *)
Theorem dry_run_still_mutates :
  _noEmit (Sample.plugin true true true Sample.head_on_branch Sample.healthy) = true /\
  filter is_mutation
         (trace (notify (Sample.plugin true true true Sample.head_on_branch
                                       Sample.healthy) Sample.params))
  = [CallCreateCommitStatus
       {| cs_owner := Js.str "acme"; cs_repo := Js.str "site";
          cs_sha := "0a1b2c3"; cs_state := failure;
          cs_description := "Regression testing failed";
          cs_context := "regression-tests"; cs_target_url := None |};
     CallCreateComment
       {| cc_owner := Js.str "acme"; cc_repo := Js.str "site";
          cc_issue_number := 7;
          cc_body := _createCommentBody
                       {| pc_apiOpt := Sample.target;
                          behavior := Js.str "default";
                          branchName := "feature";
                          headOid := "0a1b2c3";
                          failedItemsCount := 2;
                          newItemsCount := 0;
                          deletedItemsCount := 1;
                          passedItemsCount := 5;
                          shortDescription := Js.boolean false;
                          regconfigId := Js.str "";
                          pc_reportUrl := None |} |}] /\
  outcome (notify (Sample.plugin true true true Sample.head_on_branch
                                 Sample.healthy) Sample.params)
  = Fulfilled tt.
Proof. repeat split. Qed.

(** The dry-run flag changes neither the remote calls of a run nor the
    way it settles. *)
Lemma noEmit_keeps_remote_calls this params dry :
  filter is_remote_call (trace (notify (with_noEmit dry this) params))
  = filter is_remote_call (trace (notify this params)) /\
  outcome (notify (with_noEmit dry this) params) = outcome (notify this params).
Proof.
  destruct dry; run_notify; split; reflexivity.
Qed.

(* ================================================================== *)
(** ** Detached HEAD *)

(** C7, as the code has it.  On a detached HEAD with commenting enabled
    no call of the comment phase is made; when the commit-status update
    is enabled it is attempted first, for the detached commit's id; and
    the warning "HEAD is not attached into any branches." is logged, and
    the promise fulfilled, provided the commit-status update is disabled
    or succeeded. *)
Theorem detached_head_skips_comment this params h c :
  readHeadSync (_repo this) tt = inr h ->
  detached h c ->
  _prComment this = true ->
  (forall e, In e (trace (notify this params)) -> is_comment_call e = false) /\
  (_setCommitStatus this = true ->
   exists rest,
     trace (notify this params)
     = CallCreateCommitStatus (status_args this params (hash c)) :: rest) /\
  (_setCommitStatus this = false \/
   createCommitStatus (_octokit this) (status_args this params (hash c)) = inr tt ->
   In (LogWarn "HEAD is not attached into any branches.") (trace (notify this params))
   /\ outcome (notify this params) = Fulfilled tt).
Proof.
  intros Hh [Hb Hc] Hp. unfold status_args.
  unfold trace, outcome, notify, sha1_of. rewrite Hh, Hb, Hc, Hp.
  unfold errorHandler, try_catch, bind, await_call, emit, ret, reject.
  cbn. split_run.
  all: repeat match goal with |- _ /\ _ => split end.
  all: try solve [intros ev H; in_trace H; subst ev; reflexivity].
  all: try solve [intros _; eexists; reflexivity].
  all: try solve [intros H; discriminate H].
  all: try solve [intros [H | H]; try discriminate H;
                  (split; [find_event | reflexivity])].
Qed.

Lemma detached_head_skips_comment_witness :
  (forall e,
      In e (trace (notify (Sample.plugin false true true Sample.head_detached
                                         Sample.healthy) Sample.params)) ->
      is_comment_call e = false) /\
  In (LogWarn "HEAD is not attached into any branches.")
     (trace (notify (Sample.plugin false true true Sample.head_detached
                                   Sample.healthy) Sample.params)) /\
  outcome (notify (Sample.plugin false true true Sample.head_detached
                                 Sample.healthy) Sample.params) = Fulfilled tt.
Proof.
  destruct (detached_head_skips_comment
              (Sample.plugin false true true Sample.head_detached Sample.healthy)
              Sample.params Sample.head_detached Sample.tip
              eq_refl (conj eq_refl eq_refl) eq_refl)
    as (Hn & _ & Hw).
  split; [exact Hn | exact (Hw (or_intror eq_refl))].
Defined.

(** C7, as stated, fails: on a detached HEAD with commenting and
    commit-status update enabled, a refused status call ends the run
    before any warning is logged. *)
Lemma detached_head_warning_lost :
  detached Sample.head_detached Sample.tip /\
  _prComment (Sample.plugin false true true Sample.head_detached
                            Sample.status_refused) = true /\
  ~ (exists e,
        In e (trace (notify (Sample.plugin false true true Sample.head_detached
                                           Sample.status_refused) Sample.params))
        /\ is_warning e = true).
Proof.
  repeat split.
  intros (e & H & Hw). vm_compute in H.
  destruct H as [<- | [<- | []]]; discriminate Hw.
Qed.

(* ================================================================== *)
(** ** Pull-request lookup *)

(** C8.  When the comment phase is reached on a branch (commenting
    enabled, the commit-status update disabled or successful), the pull
    requests whose head is "owner:branch" are listed, and then: if the
    list is non-empty the comment is posted to its first element's number
    and to no other; if the list is empty a warning is logged, no comment
    is posted and the promise is fulfilled; if the listing itself fails
    the promise is rejected, with no warning and no comment, and what it
    is rejected with is that failure: the failure itself, or, for a
    failure named "StatusCodeError", its inner error (whose message is
    logged), a type error standing in when that inner error is missing.
    So "not found" and "could not check" differ. *)
Theorem pull_request_lookup this params h b :
  _prComment this = true ->
  readHeadSync (_repo this) tt = inr h ->
  on_branch h b ->
  _setCommitStatus this = false \/
  createCommitStatus (_octokit this)
    (status_args this params (hash (branch_commit b))) = inr tt ->
  In (CallPullsList (lookup_args this b)) (trace (notify this params)) /\
  match pulls_list (_octokit this) (lookup_args this b) with
  | inr (pr :: _) =>
      (exists a, In (CallCreateComment a) (trace (notify this params))
                 /\ cc_issue_number a = pr_number pr) /\
      (forall a, In (CallCreateComment a) (trace (notify this params)) ->
                 cc_issue_number a = pr_number pr) /\
      (forall e, In e (trace (notify this params)) -> is_warning e = false)
  | inr [] =>
      In (LogWarn ("No pull request found for branch "
                   ++ yellow (_logger this) (branch_name b) ++ "."))
         (trace (notify this params)) /\
      (forall e, In e (trace (notify this params)) -> is_comment_post e = false) /\
      outcome (notify this params) = Fulfilled tt
  | inl r =>
      (name r <> Js.str "StatusCodeError" ->
       outcome (notify this params) = Rejected (ThrownReason r) /\
       forall msg, ~ In (LogError msg) (trace (notify this params))) /\
      (name r = Js.str "StatusCodeError" ->
       forall body, error r = Some body ->
         outcome (notify this params) = Rejected (ThrownErrorBody body) /\
         In (LogError (message body)) (trace (notify this params))) /\
      (name r = Js.str "StatusCodeError" -> error r = None ->
       outcome (notify this params) = Rejected ThrownTypeError) /\
      outcome (notify this params) = outcome (errorHandler r) /\
      (exists x, outcome (notify this params) = Rejected x) /\
      (forall e, In e (trace (notify this params)) ->
                 is_warning e = false /\ is_comment_post e = false)
  end.
Proof.
  intros Hp Hh [Ht Hb] Hs. unfold status_args, lookup_args in *.
  unfold trace, outcome, notify, sha1_of. rewrite Hh, Hb, Ht, Hp.
  unfold errorHandler, try_catch, bind, await_call, emit, ret, reject.
  cbn in *. split_run.
  all: try solve [destruct Hs as [Hs | Hs]; congruence].
  all: name_failure.
  all: repeat match goal with |- _ /\ _ => split end.
  all: try reflexivity.
  all: try solve [find_event].
  all: try solve [eexists; reflexivity].
  all: try solve [intros ev H; in_trace H; subst ev; repeat split; reflexivity].
  all: try solve [intros ? H; in_trace H; injection H as <-; reflexivity].
  all: try solve [eexists; split; [find_event | reflexivity]].
  all: try solve [intros; congruence].
  all: try solve [intros Hn; try contradiction;
                  split; [reflexivity | intros msg H; in_trace H]].
  all: try solve [intros Hn body Hbody; try contradiction; try discriminate Hbody;
                  injection Hbody as <-; split; [reflexivity | find_event]].
Qed.

Lemma pull_request_lookup_witness :
  (In (CallPullsList
         (lookup_args (Sample.plugin false true true Sample.head_on_branch
                                     Sample.healthy) Sample.feature))
      (trace (notify (Sample.plugin false true true Sample.head_on_branch
                                    Sample.healthy) Sample.params)) /\
   (exists a,
       In (CallCreateComment a)
          (trace (notify (Sample.plugin false true true Sample.head_on_branch
                                        Sample.healthy) Sample.params))
       /\ cc_issue_number a = 7%Z)) /\
  (outcome (notify (Sample.plugin false true true Sample.head_on_branch
                                  Sample.lookup_unreachable) Sample.params)
   = Rejected (ThrownReason Sample.network_down) /\
   forall msg,
     ~ In (LogError msg)
          (trace (notify (Sample.plugin false true true Sample.head_on_branch
                                        Sample.lookup_unreachable) Sample.params))).
Proof.
  split.
  - destruct (pull_request_lookup
                (Sample.plugin false true true Sample.head_on_branch Sample.healthy)
                Sample.params Sample.head_on_branch Sample.feature
                eq_refl eq_refl (conj eq_refl eq_refl) (or_intror eq_refl))
      as (Hl & Hc & _).
    split; [exact Hl | exact Hc].
  - destruct (pull_request_lookup
                (Sample.plugin false true true Sample.head_on_branch
                               Sample.lookup_unreachable)
                Sample.params Sample.head_on_branch Sample.feature
                eq_refl eq_refl (conj eq_refl eq_refl) (or_intror eq_refl))
      as (_ & Hr & _).
    apply Hr. discriminate.
Defined.

(* ================================================================== *)
(** ** The comment body *)

Section Lines.

Lemma append_assoc (a b c : string) : (a ++ b) ++ c = a ++ b ++ c.
Proof.
  induction a as [| x a IH]; cbn; [reflexivity |].
  rewrite IH. reflexivity.
Qed.

Lemma no_LF_append a b : no_LF (a ++ b) = no_LF a && no_LF b.
Proof.
  induction a as [| c a IH]; cbn -[LF]; [reflexivity |].
  rewrite IH. apply andb_assoc.
Qed.

Lemma no_LF_uint d : no_LF (NilEmpty.string_of_uint d) = true.
Proof. induction d; cbn -[LF]; assumption || reflexivity. Qed.

Lemma no_LF_nat n : no_LF (Js.nat_to_string n) = true.
Proof.
  unfold Js.nat_to_string, NilZero.string_of_uint.
  destruct (Nat.to_uint n) eqn:E; try reflexivity;
    rewrite <- E; apply no_LF_uint.
Qed.

(** A text without line break is its own single line. *)
Lemma lines_single a : no_LF a = true -> lines a = [a].
Proof.
  unfold lines.
  induction a as [| c a IH]; cbn -[LF]; [reflexivity |].
  intro H. apply andb_prop in H as [Hc Ha].
  apply negb_true_iff in Hc. rewrite Hc, (IH Ha). reflexivity.
Qed.

(** The first line of a text ends at its first line break. *)
Lemma lines_first a rest :
  no_LF a = true -> lines (a ++ nl ++ rest) = a :: lines rest.
Proof.
  unfold lines, nl.
  induction a as [| c a IH]; cbn -[LF].
  - intros _. rewrite Ascii.eqb_refl. reflexivity.
  - intro H. apply andb_prop in H as [Hc Ha].
    apply negb_true_iff in Hc. rewrite Hc. cbn -[LF] in IH. rewrite (IH Ha).
    reflexivity.
Qed.

Lemma lines_first_2 a b rest :
  no_LF a = true -> no_LF b = true ->
  lines (a ++ b ++ nl ++ rest) = (a ++ b) :: lines rest.
Proof.
  intros Ha Hb.
  rewrite <- append_assoc.
  apply lines_first. rewrite no_LF_append, Ha, Hb. reflexivity.
Qed.

End Lines.

(** C5, as the code has it.  The comment body always has seven lines
    (for a report URL without line break): the header, the four count
    lines in the order failed, new, deleted, passed, then a sixth line
    that is the four-space indentation followed by
    " - Short descriptions enabled" when shortDescription is truthy and by
    nothing otherwise, then a seventh line that is the indentation
    followed by the Markdown link " - [Report URL](url)" when a non-empty
    report URL is present and by nothing otherwise. *)
Theorem comment_body_lines body :
  (forall u, pc_reportUrl body = Some u -> no_LF u = true) ->
  lines (_createCommentBody body)
  = [ "Comparison result:";
      "    - Failed items: " ++ Js.nat_to_string (failedItemsCount body);
      "    - New items: " ++ Js.nat_to_string (newItemsCount body);
      "    - Deleted items: " ++ Js.nat_to_string (deletedItemsCount body);
      "    - Passed items: " ++ Js.nat_to_string (passedItemsCount body);
      "    " ++ (if Js.truthy (shortDescription body)
                 then " - Short descriptions enabled" else "");
      "    " ++ (match pc_reportUrl body with
                 | Some u => if String.eqb u "" then ""
                             else " - [Report URL](" ++ u ++ ")"
                 | None => ""
                 end) ].
Proof.
  intro Hu. unfold _createCommentBody.
  rewrite lines_first by reflexivity.
  do 4 (rewrite lines_first_2 by (reflexivity || apply no_LF_nat)).
  rewrite lines_first_2;
    [| reflexivity | destruct (Js.truthy (shortDescription body)); reflexivity].
  rewrite lines_single.
  - destruct (pc_reportUrl body) as [u |]; cbn; [| reflexivity].
    destruct (String.eqb u ""); reflexivity.
  - destruct (pc_reportUrl body) as [u |] eqn:E; cbn; [| reflexivity].
    destruct (String.eqb u ""); cbn; [reflexivity |].
    rewrite no_LF_append, (Hu u eq_refl). reflexivity.
Qed.

Lemma comment_body_lines_witness :
  lines (_createCommentBody Sample.body_full)
  = [ "Comparison result:";
      "    - Failed items: 2";
      "    - New items: 0";
      "    - Deleted items: 1";
      "    - Passed items: 5";
      "     - Short descriptions enabled";
      "     - [Report URL](https://reports.example/run/42)" ].
Proof.
  apply (comment_body_lines Sample.body_full).
  intros u [= <-]. reflexivity.
Defined.

(** C5, as stated, fails: with shortDescription false and no report URL
    the body is not just the header and the four count lines; two more
    lines follow, each made of the four-space indentation. *)
Lemma comment_body_trailing_lines :
  shortDescription Sample.body = Js.boolean false /\
  pc_reportUrl Sample.body = None /\
  _createCommentBody Sample.body
  <> "Comparison result:" ++ nl ++
     "    - Failed items: 2" ++ nl ++
     "    - New items: 0" ++ nl ++
     "    - Deleted items: 1" ++ nl ++
     "    - Passed items: 5" /\
  lines (_createCommentBody Sample.body)
  = [ "Comparison result:";
      "    - Failed items: 2";
      "    - New items: 0";
      "    - Deleted items: 1";
      "    - Passed items: 5";
      "    ";
      "    " ].
Proof.
  repeat split. intro H. vm_compute in H. discriminate H.
Qed.

(* ================================================================== *)
(** ** Decoding the client id *)

Section Split.

Variable sep : ascii.

Lemma split_length s : length (Js.split sep s) = S (count_char sep s).
Proof.
  induction s as [| c s IH]; cbn; [reflexivity |].
  destruct (Ascii.eqb c sep); cbn; [rewrite IH; reflexivity |].
  destruct (Js.split sep s); cbn in *; congruence.
Qed.

Lemma no_char_append a b : no_char sep (a ++ b) = no_char sep a && no_char sep b.
Proof.
  induction a as [| c a IH]; cbn; [reflexivity |].
  rewrite IH. apply andb_assoc.
Qed.

Lemma split_single a : no_char sep a = true -> Js.split sep a = [a].
Proof.
  induction a as [| c a IH]; cbn; [reflexivity |].
  intro H. apply andb_prop in H as [Hc Ha].
  apply negb_true_iff in Hc. rewrite Hc, (IH Ha). reflexivity.
Qed.

Lemma split_first a rest :
  no_char sep a = true ->
  Js.split sep (a ++ String sep rest) = a :: Js.split sep rest.
Proof.
  induction a as [| c a IH]; cbn.
  - intros _. rewrite Ascii.eqb_refl. reflexivity.
  - intro H. apply andb_prop in H as [Hc Ha].
    apply negb_true_iff in Hc. rewrite Hc, (IH Ha). reflexivity.
Qed.

End Split.

(** X1.  A client id that inflates to four slash-separated parts decodes
    to the second part as repository, the third as installation id and the
    fourth as owner; the first part is ignored and nothing is logged. *)
Theorem decodeClientId_parts inflate log clientId p0 repo inst own :
  inflate clientId
  = Some (p0 ++ String "/" (repo ++ String "/" (inst ++ String "/" own))) ->
  no_char "/" p0 = true -> no_char "/" repo = true ->
  no_char "/" inst = true -> no_char "/" own = true ->
  _decodeClientId inflate log clientId
  = ([], Fulfilled {| installationId := Js.str inst;
                      owner := Js.str own;
                      repository := Js.str repo |}).
Proof.
  intros Hi H0 H1 H2 H3. unfold _decodeClientId. rewrite Hi.
  rewrite (split_first _ _ _ H0), (split_first _ _ _ H1),
          (split_first _ _ _ H2), (split_single _ _ H3).
  reflexivity.
Qed.

Lemma decodeClientId_parts_witness :
  _decodeClientId (fun _ => Some "v1/site/12345/acme") Sample.plain (Js.str "eJw=")
  = ([], Fulfilled {| installationId := Js.str "12345";
                      owner := Js.str "acme";
                      repository := Js.str "site" |}).
Proof.
  apply (decodeClientId_parts (fun _ => Some "v1/site/12345/acme") Sample.plain
           (Js.str "eJw=") "v1" "site" "12345" "acme"); reflexivity.
Defined.

(** X2.  Once the client id inflates to a text, decoding succeeds exactly
    when that text holds three slashes.  Then all three fields of the
    result are strings.  Otherwise one error naming the client id is
    logged and an exception with the message "Invalid client ID: <id>" is
    thrown. *)
Theorem decodeClientId_three_slashes inflate log clientId text :
  inflate clientId = Some text ->
  (count_char "/" text = 3 ->
   exists repo inst own,
     _decodeClientId inflate log clientId
     = ([], Fulfilled {| installationId := Js.str inst;
                         owner := Js.str own;
                         repository := Js.str repo |})) /\
  (count_char "/" text <> 3 ->
   _decodeClientId inflate log clientId
   = ([LogError ("Invalid client ID: " ++ red log (Js.to_string clientId))],
      Rejected (ThrownError ("Invalid client ID: " ++ Js.to_string clientId)))).
Proof.
  intro Hi. unfold _decodeClientId. rewrite Hi.
  pose proof (split_length "/" text) as Hl.
  split; intro Hc.
  - rewrite Hl, Hc. cbn.
    destruct (Js.split "/" text) as [| a [| b [| c [| d [| ? ?]]]]];
      cbn in Hl; try lia.
    exists b, c, d. reflexivity.
  - destruct (Nat.eqb_spec (length (Js.split "/" text)) 4) as [E | E];
      [lia | reflexivity].
Qed.

Lemma decodeClientId_three_slashes_witness :
  _decodeClientId (fun _ => Some "site/acme") Sample.plain (Js.str "eJw=")
  = ([LogError "Invalid client ID: eJw="],
     Rejected (ThrownError "Invalid client ID: eJw=")).
Proof.
  apply (decodeClientId_three_slashes (fun _ => Some "site/acme") Sample.plain
           (Js.str "eJw=") "site/acme" eq_refl).
  simpl. lia.
Defined.

(* ================================================================== *)
(** ** The target [init] settles on *)

(** X3.  Without a client id (absent, or any falsy value) [init] never
    fails, logs nothing, and takes owner, repository and installation id
    from the options.  With a client id the options' owner, repository
    and installation id are ignored: [init] logs what decoding logs, fails
    exactly when decoding fails and with the same exception, and otherwise
    targets what the client id decodes to. *)
Theorem init_target inflate endpoint repo octo (config : PluginCreateOptions) :
  (Js.truthy (opt_clientId (options config)) = false ->
   exists this,
     init inflate endpoint repo octo config = ([], Fulfilled this) /\
     _apiOpt this = {| installationId := opt_installationId (options config);
                       owner := opt_owner (options config);
                       repository := opt_repository (options config) |}) /\
  (Js.truthy (opt_clientId (options config)) = true ->
   trace (init inflate endpoint repo octo config)
   = trace (_decodeClientId inflate (logger config) (opt_clientId (options config))) /\
   match outcome (_decodeClientId inflate (logger config)
                                  (opt_clientId (options config))) with
   | Fulfilled target =>
       exists this,
         outcome (init inflate endpoint repo octo config) = Fulfilled this /\
         _apiOpt this = target
   | Rejected e => outcome (init inflate endpoint repo octo config) = Rejected e
   end).
Proof.
  split; intro H; unfold init; rewrite H.
  - cbn. eexists. split; reflexivity.
  - unfold trace, outcome, bind.
    destruct (_decodeClientId inflate (logger config) (opt_clientId (options config)))
      as [t [target | e]]; cbn.
    + split; [apply app_nil_r |]. eexists. split; reflexivity.
    + split; reflexivity.
Qed.

(** [init] passes the dry-run flag and the logger through, and prefers a
    custom endpoint to the application's own. *)
Lemma init_passes_through inflate endpoint repo octo config this :
  outcome (init inflate endpoint repo octo config) = Fulfilled this ->
  _noEmit this = noEmit config /\ _logger this = logger config /\
  _repo this = repo /\ _octokit this = octo /\
  _apiPrefix this = Js.or (opt_customEndpoint (options config)) endpoint.
Proof.
  unfold outcome, init, bind.
  destruct (if Js.truthy (opt_clientId (options config)) then _ else _)
    as [t [target | e]]; cbn; intro H; [| discriminate H].
  inversion H; subst this; cbn. repeat split.
Qed.

(* ================================================================== *)
(** ** Classifying a failure *)

(** X4.  The handler never lets a failure pass silently into success: it
    always rejects.  A failure whose [name] is the string
    "StatusCodeError" has its inner message logged once at error level and
    is replaced by its inner [error] object; one without an inner [error]
    ends in a type error; any other failure is rethrown unchanged and
    nothing is logged. *)
Theorem errorHandler_cases r :
  (name r = Js.str "StatusCodeError" ->
   forall b, error r = Some b ->
             errorHandler r = ([LogError (message b)], Rejected (ThrownErrorBody b))) /\
  (name r = Js.str "StatusCodeError" -> error r = None ->
   errorHandler r = ([], Rejected ThrownTypeError)) /\
  (name r <> Js.str "StatusCodeError" ->
   errorHandler r = ([], Rejected (ThrownReason r))).
Proof.
  unfold errorHandler. repeat split.
  - intros Hn b Hb. apply isGhAppError_iff in Hn. rewrite Hn, Hb. reflexivity.
  - intros Hn Hb. apply isGhAppError_iff in Hn. rewrite Hn, Hb. reflexivity.
  - intro Hn. destruct (isGhAppError r) eqn:E; [| reflexivity].
    apply isGhAppError_iff in E. contradiction.
Qed.

(* ================================================================== *)
(** ** What [notify] sends, and when *)

(** Name the commit id of HEAD after the branch or commit it came from. *)
Ltac name_sha :=
  repeat match goal with
    | H : Some _ = Some ?s |- _ => is_var s; injection H as H; subst s
    | H : None = Some _ |- _ => discriminate H
    end.

(** A pull-request listing is only ever made for the branch HEAD is on. *)
Lemma lookup_call_args this params l :
  In (CallPullsList l) (trace (notify this params)) ->
  _prComment this = true /\
  exists h, readHeadSync (_repo this) tt = inr h /\
            head_type h = TypeBranch /\
            exists b, head_branch h = Some b /\ l = lookup_args this b.
Proof.
  unfold lookup_args.
  run_notify; intro H; in_trace H; injection H as <-;
    (split; [reflexivity |]);
    eexists; (split; [reflexivity |]);
    (split; [assumption |]);
    eexists; (split; [eassumption | reflexivity]).
Qed.

(** A comment is only ever posted to the first pull request of a
    successful, non-empty listing for the branch HEAD is on. *)
Lemma comment_call_args this params a :
  In (CallCreateComment a) (trace (notify this params)) ->
  exists h b pr more,
    readHeadSync (_repo this) tt = inr h /\
    head_branch h = Some b /\
    pulls_list (_octokit this) (lookup_args this b) = inr (pr :: more) /\
    a = comment_args this params b pr.
Proof.
  unfold comment_args, comment_payload, lookup_args.
  run_notify; intro H; in_trace H; injection H as <-; name_sha;
    do 4 eexists;
    (split; [reflexivity | split; [eassumption | split; [eassumption | reflexivity]]]).
Qed.

(** X5.  A run makes at most three remote calls, never the same endpoint
    twice and never a retry: at most one commit-status update, then at
    most one pull-request listing, then at most one comment post, which
    only ever follows a listing. *)
Theorem remote_calls_in_order this params :
  exists first rest,
    filter is_remote_call (trace (notify this params)) = (first ++ rest)%list /\
    (first = [] \/ exists a, first = [CallCreateCommitStatus a]) /\
    (rest = [] \/
     (exists l, rest = [CallPullsList l]) \/
     (exists l c, rest = [CallPullsList l; CallCreateComment c])).
Proof.
  run_notify.
  all: first
    [ solve [exists [], []; repeat split; auto]
    | solve [eexists [_], []; repeat split; eauto]
    | solve [eexists [], [_]; repeat split; eauto]
    | solve [eexists [_], [_]; repeat split; eauto]
    | solve [eexists [], [_; _]; repeat split; eauto 6]
    | solve [eexists [_], [_; _]; repeat split; eauto 6] ].
Qed.

(** X6.  Every commit-status update a run makes is for the configured
    owner and repository, under the context "regression-tests", with the
    report URL exactly as given; its commit is the tip of the branch
    whenever HEAD carries a branch, and the commit of HEAD only when it
    carries none. *)
Theorem status_call_target this params a :
  In (CallCreateCommitStatus a) (trace (notify this params)) ->
  cs_owner a = owner (_apiOpt this) /\
  cs_repo a = repository (_apiOpt this) /\
  cs_context a = "regression-tests" /\
  cs_target_url a = reportUrl params /\
  exists h,
    readHeadSync (_repo this) tt = inr h /\
    match head_branch h, head_commit h with
    | Some b, _ => cs_sha a = hash (branch_commit b)
    | None, Some c => cs_sha a = hash c
    | None, None => False
    end.
Proof.
  intro H. apply status_call_args in H as (_ & h & sha & Hh & Hsha & ->).
  unfold sha1_of in Hsha. cbn.
  repeat split. exists h. split; [exact Hh |].
  destruct (head_branch h); [| destruct (head_commit h)]; congruence.
Qed.

Lemma status_call_target_witness :
  cs_sha (status_args (Sample.plugin false true true Sample.head_on_branch
                                     Sample.healthy) Sample.params "0a1b2c3")
  = hash (branch_commit Sample.feature).
Proof.
  pose proof (status_call_target
                (Sample.plugin false true true Sample.head_on_branch Sample.healthy)
                Sample.params
                (status_args (Sample.plugin false true true Sample.head_on_branch
                                            Sample.healthy) Sample.params "0a1b2c3")
                (or_introl eq_refl)) as (_ & _ & _ & _ & h & Hh & H).
  injection Hh as <-. exact H.
Defined.

(** X7.  A pull-request listing is made only when commenting is enabled
    and HEAD is of type branch and carries a branch, and it asks for the
    head "owner:branch"; a comment is posted only to the first pull request
    of a listing that succeeded and was not empty, for the configured owner
    and repository, with the body rendered from the run's own counts. *)
Theorem comment_phase_calls this params :
  (forall l,
      In (CallPullsList l) (trace (notify this params)) ->
      _prComment this = true /\
      exists h,
        readHeadSync (_repo this) tt = inr h /\
        head_type h = TypeBranch /\
        exists b, head_branch h = Some b /\
                  pl_owner l = owner (_apiOpt this) /\
                  pl_repo l = repository (_apiOpt this) /\
                  pl_head l
                  = Js.to_string (owner (_apiOpt this)) ++ ":" ++ branch_name b) /\
  (forall a,
      In (CallCreateComment a) (trace (notify this params)) ->
      exists h b pr more,
        readHeadSync (_repo this) tt = inr h /\
        head_branch h = Some b /\
        pulls_list (_octokit this) (lookup_args this b) = inr (pr :: more) /\
        cc_owner a = owner (_apiOpt this) /\
        cc_repo a = repository (_apiOpt this) /\
        cc_issue_number a = pr_number pr /\
        cc_body a = _createCommentBody (comment_payload this params b)).
Proof.
  split.
  - intros l H. apply lookup_call_args in H as (Hp & h & Hh & Ht & b & Hb & ->).
    split; [assumption |]. exists h. repeat split; try assumption.
    exists b. repeat split. assumption.
  - intros a H.
    apply comment_call_args in H as (h & b & pr & more & Hh & Hb & Hl & ->).
    exists h, b, pr, more. repeat split; assumption.
Qed.

(** The lines of a rendered body, for any payload. *)
Lemma rendered_lines body :
  (forall u, pc_reportUrl body = Some u -> no_LF u = true) ->
  lines (_createCommentBody body)
  = [ "Comparison result:";
      "    - Failed items: " ++ Js.nat_to_string (failedItemsCount body);
      "    - New items: " ++ Js.nat_to_string (newItemsCount body);
      "    - Deleted items: " ++ Js.nat_to_string (deletedItemsCount body);
      "    - Passed items: " ++ Js.nat_to_string (passedItemsCount body);
      "    " ++ (if Js.truthy (shortDescription body)
                 then " - Short descriptions enabled" else "");
      "    " ++ (if Js.truthy_opt (pc_reportUrl body)
                 then " - [Report URL](" ++ Js.to_string_opt (pc_reportUrl body) ++ ")"
                 else "") ].
Proof.
  intro Hu. unfold _createCommentBody.
  rewrite lines_first by reflexivity.
  do 4 (rewrite lines_first_2 by (reflexivity || apply no_LF_nat)).
  rewrite lines_first_2;
    [| reflexivity | destruct (Js.truthy (shortDescription body)); reflexivity].
  rewrite lines_single; [reflexivity |].
  destruct (pc_reportUrl body) as [u |] eqn:E; cbn; [| reflexivity].
  destruct (String.eqb u ""); cbn; [reflexivity |].
  rewrite no_LF_append, (Hu u eq_refl). reflexivity.
Qed.

(** X8.  The comment a run posts reports the run's own figures: its
    count lines show the numbers of failed, new, deleted and passed items
    of the comparison result, in decimal; the short-description line is
    filled exactly when the plugin's shortDescription is truthy; and the
    link line is filled, with the report URL, exactly when the run was
    given a non-empty report URL. *)
Theorem posted_comment_lines this params a :
  (forall u, reportUrl params = Some u -> no_LF u = true) ->
  In (CallCreateComment a) (trace (notify this params)) ->
  lines (cc_body a)
  = [ "Comparison result:";
      "    - Failed items: "
        ++ Js.nat_to_string (length (failedItems (comparisonResult params)));
      "    - New items: "
        ++ Js.nat_to_string (length (newItems (comparisonResult params)));
      "    - Deleted items: "
        ++ Js.nat_to_string (length (deletedItems (comparisonResult params)));
      "    - Passed items: "
        ++ Js.nat_to_string (length (passedItems (comparisonResult params)));
      "    " ++ (if Js.truthy (_shortDescription this)
                 then " - Short descriptions enabled" else "");
      "    " ++ (match reportUrl params with
                 | Some u => if String.eqb u "" then ""
                             else " - [Report URL](" ++ u ++ ")"
                 | None => ""
                 end) ].
Proof.
  intros Hu H. apply comment_call_args in H as (h & b & pr & more & _ & _ & _ & ->).
  unfold comment_args. cbn [cc_body].
  rewrite rendered_lines.
  - unfold comment_payload. cbn.
    destruct (reportUrl params) as [u |]; cbn; [| reflexivity].
    destruct (String.eqb u "") eqn:E; cbn; rewrite ?E; reflexivity.
  - unfold comment_payload. cbn. intros u.
    destruct (reportUrl params) as [v |]; cbn; [| discriminate].
    destruct (String.eqb v ""); cbn; [discriminate |].
    intros [= ->]. apply Hu. reflexivity.
Qed.

Lemma posted_comment_lines_witness :
  lines (cc_body (comment_args (Sample.plugin false true true Sample.head_on_branch
                                              Sample.healthy)
                               Sample.params Sample.feature {| pr_number := 7 |}))
  = [ "Comparison result:";
      "    - Failed items: 2";
      "    - New items: 0";
      "    - Deleted items: 1";
      "    - Passed items: 5";
      "    ";
      "    " ].
Proof.
  apply (posted_comment_lines
           (Sample.plugin false true true Sample.head_on_branch Sample.healthy)
           Sample.params).
  - intros u H. discriminate H.
  - simpl. do 5 right. left. reflexivity.
Defined.

(** X9.  When both phases are enabled, HEAD is on a branch, a pull
    request is open and all three remote calls succeed, a run is exactly:
    status update, its success message, the report-URL trace message, the
    listing, the pull-request trace message, the comment post, its success
    message, and, unless the dry-run flag is set, the spinner; and it is
    fulfilled. *)
Theorem notify_full_run this params h b pr more :
  _setCommitStatus this = true ->
  _prComment this = true ->
  readHeadSync (_repo this) tt = inr h ->
  on_branch h b ->
  createCommitStatus (_octokit this)
    (status_args this params (hash (branch_commit b))) = inr tt ->
  pulls_list (_octokit this) (lookup_args this b) = inr (pr :: more) ->
  createComment (_octokit this) (comment_args this params b pr) = inr tt ->
  notify this params
  = ([ CallCreateCommitStatus (status_args this params (hash (branch_commit b)));
       LogInfo (updated_message this (hash (branch_commit b)));
       LogVerbose "params.reportUrl: " (ArgReportUrl (reportUrl params));
       CallPullsList (lookup_args this b);
       LogVerbose "pr: " (ArgPr pr);
       CallCreateComment (comment_args this params b pr);
       LogInfo (commented_message this pr) ]
     ++ (if _noEmit this then []
         else [GetSpinner spinner_text; SpinnerStart; SpinnerStop]),
     Fulfilled tt)%list.
Proof.
  intros Hs Hp Hh [Ht Hb] Hstatus Hlist Hcomment.
  unfold status_args, lookup_args, comment_args, comment_payload in *.
  unfold updated_message, commented_message.
  unfold notify, sha1_of. rewrite Hh, Hb, Ht, Hs, Hp.
  unfold try_catch, bind, await_call, emit, ret. cbn in *.
  rewrite Hstatus. cbn. rewrite Hlist. cbn. rewrite Hcomment. cbn.
  destruct (_noEmit this); reflexivity.
Qed.

Lemma notify_full_run_witness :
  trace (notify (Sample.plugin true true true Sample.head_on_branch Sample.healthy)
                Sample.params)
  = [ CallCreateCommitStatus
        (status_args (Sample.plugin true true true Sample.head_on_branch
                                    Sample.healthy) Sample.params "0a1b2c3");
      LogInfo "Updated commit status for 0a1b2c3 .";
      LogVerbose "params.reportUrl: " (ArgReportUrl None);
      CallPullsList {| pl_owner := Js.str "acme"; pl_repo := Js.str "site";
                       pl_head := "acme:feature" |};
      LogVerbose "pr: " (ArgPr {| pr_number := 7 |});
      CallCreateComment
        (comment_args (Sample.plugin true true true Sample.head_on_branch
                                     Sample.healthy)
                      Sample.params Sample.feature {| pr_number := 7 |});
      LogInfo "Commented on PR acme/site#7 ." ].
Proof.
  rewrite (notify_full_run
             (Sample.plugin true true true Sample.head_on_branch Sample.healthy)
             Sample.params Sample.head_on_branch Sample.feature
             {| pr_number := 7 |} []
             eq_refl eq_refl eq_refl (conj eq_refl eq_refl)
             eq_refl eq_refl eq_refl).
  reflexivity.
Defined.

(** X10.  The spinner is requested, started and stopped, in that order
    and as the last three events, exactly in the runs that reach the end
    of [notify] with the dry-run flag off: HEAD resolved and no remote call
    failed.  In every other run there is no spinner event at all. *)
Theorem spinner_only_at_the_end this params :
  filter is_spinner (trace (notify this params))
  = (if _noEmit this then []
     else match sha1_of_reading (readHeadSync (_repo this) tt),
                outcome (notify this params) with
          | Some _, Fulfilled _ => [GetSpinner spinner_text; SpinnerStart; SpinnerStop]
          | _, _ => []
          end) /\
  trace (notify this params)
  = (filter (fun e => negb (is_spinner e)) (trace (notify this params))
     ++ filter is_spinner (trace (notify this params)))%list.
Proof.
  unfold sha1_of_reading. run_notify; split; reflexivity.
Qed.

(** X11.  The comment behavior, the regconfig id, the API prefix and the
    installation id have no effect on a run: whatever their values,
    [notify] performs the same events, with the same arguments and the
    same comment body, and settles the same way. *)
Theorem passive_fields_have_no_effect this params behavior' regconfigId' apiPrefix' inst' :
  notify (with_passive_fields behavior' regconfigId' apiPrefix' inst' this) params
  = notify this params.
Proof.
  unfold notify, with_passive_fields. cbn. unfold _createCommentBody. cbn.
  reflexivity.
Qed.

(** The first event of a run with the commit-status update enabled. *)
Lemma status_call_first this params sha :
  _setCommitStatus this = true ->
  sha1_of_reading (readHeadSync (_repo this) tt) = Some sha ->
  exists rest,
    trace (notify this params)
    = CallCreateCommitStatus (status_args this params sha) :: rest.
Proof.
  intros Hs Hsha. unfold trace, notify, status_args.
  unfold sha1_of_reading in Hsha.
  destruct (readHeadSync (_repo this) tt) as [thrown | h]; [discriminate Hsha |].
  rewrite Hsha, Hs.
  unfold errorHandler, try_catch, bind, await_call, emit, ret, reject.
  cbn. split_run; eexists; reflexivity.
Qed.

(** With commenting off the comment phase makes no call. *)
Lemma comment_off this params e :
  _prComment this = false ->
  In e (trace (notify this params)) -> is_comment_call e = false.
Proof.
  intro Hp. unfold trace, notify.
  destruct (readHeadSync (_repo this) tt) as [thrown | h]; [intros [] |].
  rewrite Hp.
  unfold sha1_of, errorHandler, try_catch, bind, await_call, emit, ret, reject.
  cbn. split_run; intro H; in_trace H; subst e; reflexivity.
Qed.

(** With commenting on and no commit-status update, the listing is made
    for the branch HEAD is on. *)
Lemma lookup_reached this params h b :
  _prComment this = true ->
  _setCommitStatus this = false ->
  readHeadSync (_repo this) tt = inr h ->
  on_branch h b ->
  In (CallPullsList (lookup_args this b)) (trace (notify this params)).
Proof.
  intros Hp Hs Hh [Ht Hb]. unfold trace, notify, sha1_of, lookup_args.
  rewrite Hh, Hb, Ht, Hp, Hs.
  unfold errorHandler, try_catch, bind, await_call, emit, ret, reject.
  cbn. split_run; find_event.
Qed.

Lemma init_flags inflate endpoint repo octo config this :
  outcome (init inflate endpoint repo octo config) = Fulfilled this ->
  _prComment this = Js.strict_neq (opt_prComment (options config)) (Js.boolean false) /\
  _setCommitStatus this
  = Js.strict_neq (opt_setCommitStatus (options config)) (Js.boolean false) /\
  _repo this = repo.
Proof.
  unfold outcome, init, bind.
  destruct (if Js.truthy (opt_clientId (options config)) then _ else _)
    as [t [target | e]]; cbn; intro H; [| discriminate H].
  inversion H; subst this; cbn. repeat split.
Qed.

(** X12.  The options decide the phases of the runs of the plugin [init]
    builds.  With setCommitStatus the literal [false] no run updates a
    commit status; with any other value, or none, every run whose HEAD
    resolves starts with the commit-status update.  With prComment the
    literal [false] no run lists pull requests or posts a comment; with any
    other value, or none, a run on a branch whose commit-status update is
    switched off lists the pull requests of that branch. *)
Theorem init_then_notify inflate endpoint repo octo config this params :
  outcome (init inflate endpoint repo octo config) = Fulfilled this ->
  (opt_setCommitStatus (options config) = Js.boolean false ->
   forall a, ~ In (CallCreateCommitStatus a) (trace (notify this params))) /\
  (opt_setCommitStatus (options config) <> Js.boolean false ->
   forall sha, sha1_of_reading (readHeadSync repo tt) = Some sha ->
   exists rest,
     trace (notify this params)
     = CallCreateCommitStatus (status_args this params sha) :: rest) /\
  (opt_prComment (options config) = Js.boolean false ->
   forall e, In e (trace (notify this params)) -> is_comment_call e = false) /\
  (opt_prComment (options config) <> Js.boolean false ->
   opt_setCommitStatus (options config) = Js.boolean false ->
   forall h b, readHeadSync repo tt = inr h -> on_branch h b ->
   In (CallPullsList (lookup_args this b)) (trace (notify this params))).
Proof.
  intro Hi. apply init_flags in Hi as (Hp & Hs & Hr).
  repeat split.
  - intros Hoff a H. apply status_call_args in H as (Hon & _).
    rewrite Hs, Hoff in Hon. discriminate Hon.
  - intros Hon sha Hsha. apply status_call_first.
    + rewrite Hs. apply strict_neq_false_iff. exact Hon.
    + rewrite Hr. exact Hsha.
  - intros Hoff e H. apply (comment_off this params e); [| exact H].
    rewrite Hp, Hoff. reflexivity.
  - intros Hon Hoff h b Hh Hb. apply (lookup_reached this params h b).
    + rewrite Hp. apply strict_neq_false_iff. exact Hon.
    + rewrite Hs, Hoff. reflexivity.
    + rewrite Hr. exact Hh.
    + exact Hb.
Qed.

Lemma init_then_notify_witness :
  exists this rest,
    init (fun _ => None) (Js.str "https://app.example") 
         {| readHeadSync := fun _ => inr Sample.head_detached |} Sample.healthy
         Sample.config
    = ([], Fulfilled this) /\
    trace (notify this Sample.params)
    = CallCreateCommitStatus (status_args this Sample.params "0a1b2c3") :: rest.
Proof.
  eexists.
  destruct (init_then_notify
              (fun _ => None) (Js.str "https://app.example")
              {| readHeadSync := fun _ => inr Sample.head_detached |} Sample.healthy
              Sample.config _ Sample.params eq_refl) as (_ & Hon & _).
  destruct (Hon ltac:(discriminate) "0a1b2c3" eq_refl) as [rest Hrest].
  exists rest. split; [reflexivity | exact Hrest].
Defined.

(** Replace the remote calls in the goal by the answers they got. *)
Ltac use_answers :=
  repeat match goal with
    | u : unit |- _ => destruct u
    | H : ?x = inr _ |- context [?x] => rewrite H
    | H : ?x = inl _ |- context [?x] => rewrite H
    end.

(** X13.  The success messages tell the truth.  When a run updated a
    commit status, "Updated commit status for <commit> ." is logged exactly
    if that call succeeded; when a run posted a comment, "Commented on PR
    <owner>/<repository>#<number> ." is logged exactly if that call
    succeeded. *)
Theorem success_messages_are_truthful this params :
  (forall a,
      In (CallCreateCommitStatus a) (trace (notify this params)) ->
      (createCommitStatus (_octokit this) a = inr tt
       <-> In (LogInfo (updated_message this (cs_sha a)))
              (trace (notify this params)))) /\
  (forall a,
      In (CallCreateComment a) (trace (notify this params)) ->
      (createComment (_octokit this) a = inr tt
       <-> In (LogInfo (commented_message this {| pr_number := cc_issue_number a |}))
              (trace (notify this params)))).
Proof.
  unfold updated_message, commented_message.
  split; intros a.
  - run_notify; intro H; in_trace H; injection H as <-; cbn;
      (split; intro Hx;
       [ first [ congruence | solve [find_event] ]
       | first [ solve [use_answers; reflexivity] | solve [exfalso; in_trace Hx] ] ]).
  - run_notify; intro H; in_trace H; injection H as <-; cbn;
      (split; intro Hx;
       [ first [ congruence | solve [find_event] ]
       | first [ solve [use_answers; reflexivity] | solve [exfalso; in_trace Hx] ] ]).
Qed.
